(** * PySuiteCRM configuration parsers ([config_parser.py])

    A shallow embedding of the two configuration adapters, [ENVParser] and
    [JSONParser], of the dataclass [PySuiteCRMConfig] they build and of the
    exceptions that can leave them, followed by the properties of the
    specification stated over that embedding. *)

From Stdlib Require Import ZArith SpecFloat.
From stdpp Require Import gmap strings.

Set Warnings "-register-all".

(** ** Python values

    The values that reach the parsers: [None] and strings from
    [os.environ.get], and whatever [json.load] decodes a document to.  A
    JSON object decodes to a [dict] keyed by strings, a JSON number to an
    [int] or to a [float] (an IEEE 754 double, so with signed zeros,
    infinities and NaN). *)

Inductive pyvalue : Type :=
| PyNone
| PyBool (b : bool)
| PyInt (z : Z)
| PyFloat (f : spec_float)
| PyStr (s : string)
| PyList (l : list pyvalue)
| PyDict (d : gmap string pyvalue).

Definition float_is_zero (f : spec_float) : bool :=
  match f with
  | S754_zero _ => true
  | _ => false
  end.

(** Python's truth value test, [bool(v)], as used by [if not v]. *)
Definition truthy (v : pyvalue) : bool :=
  match v with
  | PyNone => false
  | PyBool b => b
  | PyInt z => negb (z =? 0)%Z
  | PyFloat f => negb (float_is_zero f)
  | PyStr s => negb (String.eqb s "")
  | PyList l => negb (Nat.eqb (length l) 0)
  | PyDict d => negb (Nat.eqb (size d) 0)
  end.

Definition is_dict (v : pyvalue) : bool :=
  match v with
  | PyDict _ => true
  | _ => false
  end.

(** ** Exceptions

    [PySuiteCRMConfigException] is the one exception class of the module;
    it carries the message it was raised with.  The others are raised by
    Python itself or by its standard library and cross the module
    untouched, as it has no [try] statement. *)

Inductive exn : Type :=
| PySuiteCRMConfigException (msg : string)
| TypeError
| JSONDecodeError
| FileNotFoundError
| UnicodeDecodeError
| RecursionError
| ValueError
| IsADirectoryError
| PermissionError
| OSError.

Definition is_config_exception (e : exn) : bool :=
  match e with
  | PySuiteCRMConfigException _ => true
  | _ => false
  end.

(** A computation that returns a value or raises. *)
Definition Exc (A : Type) : Type := (exn + A)%type.

#[global] Instance Exc_ret : MRet Exc := λ A x, inr x.
#[global] Instance Exc_bind : MBind Exc := λ A B f m,
  match m with
  | inl e => inl e
  | inr x => f x
  end.

(** A method of an object whose attributes are [S]: it starts from the
    attributes of [self], returns or raises, and leaves [self] with the
    attributes it had when it returned or raised. *)
Definition M (S A : Type) : Type := S → Exc A * S.

#[global] Instance M_ret {S} : MRet (M S) := λ A x s, (inr x, s).
#[global] Instance M_bind {S} : MBind (M S) := λ A B f m s,
  match m s with
  | (inl e, s') => (inl e, s')
  | (inr x, s') => f x s'
  end.

Definition get_self {S} : M S S := λ s, (inr s, s).
Definition set_self {S} (s' : S) : M S unit := λ _, (inr tt, s').
Definition raise {S A} (e : exn) : M S A := λ s, (inl e, s).
Definition lift {S A} (c : Exc A) : M S A := λ s, (c, s).

(** ** The world outside the module *)

(** [os.environ.get(name)]: the value bound to [name], or [None]. *)
Definition environ_get (environ : gmap string string) (name : string) : pyvalue :=
  match environ !! name with
  | Some s => PyStr s
  | None => PyNone
  end.

(** Why [open] does not return a file where there is something: the path
    leads to a directory, the file may not be read, the path holds a NUL
    character, or the system reports another failure. *)
Inductive open_error : Type :=
| IsDirectory
| NotPermitted
| EmbeddedNull
| InputOutput.

Definition raised_by_open (e : open_error) : exn :=
  match e with
  | IsDirectory => IsADirectoryError
  | NotPermitted => PermissionError
  | EmbeddedNull => ValueError
  | InputOutput => OSError
  end.

(** Why [json.load] does not return a value: the text is not a JSON
    document, the bytes are not text in the encoding of the file, the
    document is nested too deeply, or a number has more digits than [int]
    converts. *)
Inductive load_error : Type :=
| InvalidDocument
| InvalidEncoding
| TooDeep
| TooManyDigits.

Definition raised_by_load (e : load_error) : exn :=
  match e with
  | InvalidDocument => JSONDecodeError
  | InvalidEncoding => UnicodeDecodeError
  | TooDeep => RecursionError
  | TooManyDigits => ValueError
  end.

(** What a path leads to, as [open] and then [json.load] meet it:
    something that [open] refuses, a file that [json.load] refuses, or a
    file that [json.load] decodes to a value (whatever the text, so also
    the [NaN] and [Infinity] that Python's decoder takes). *)
Inductive file : Type :=
| Unopenable (e : open_error)
| NotJSON (e : load_error)
| JSONText (v : pyvalue).

(** [open(pathlib.Path(config_file), 'r')].  The map [fs] is the file
    system as seen through [pathlib.Path]: it gives, for the string
    [config_file], what the path made of it leads to, and nothing where
    that path leads to nothing. *)
Definition open (fs : gmap string file) (path : string) : Exc file :=
  match fs !! path with
  | Some (Unopenable e) => inl (raised_by_open e)
  | Some f => inr f
  | None => inl FileNotFoundError
  end.

(** [json.load(infile)]; [open] returns no [Unopenable]. *)
Definition json_load (infile : file) : Exc pyvalue :=
  match infile with
  | Unopenable e => inl (raised_by_open e)
  | NotJSON e => inl (raised_by_load e)
  | JSONText v => inr v
  end.

(** The double-star unpacking of [v] in a call: the keyword arguments it
    stands for; anything but a mapping is a [TypeError]. *)
Definition unpack_kwargs (v : pyvalue) : Exc (gmap string pyvalue) :=
  match v with
  | PyDict d => inr d
  | _ => inl TypeError
  end.

(** ** [PySuiteCRMConfig] *)

Module PySuiteCRMConfig.

Record t : Type := {
  url : pyvalue;
  client_id : pyvalue;
  client_secret : pyvalue;
  custom_modules : pyvalue
}.

(** The parameters of the generated [__init__], after [self]. *)
Definition fields : list string :=
  ["url"; "client_id"; "client_secret"; "custom_modules"].

(** Those without a default value. *)
Definition required : list string := ["url"; "client_id"; "client_secret"].

(** The generated [__init__] called with keyword arguments only: a
    keyword that names no parameter is a [TypeError], and so is a
    parameter without default that is given no argument;
    [custom_modules] defaults to a new empty list.  The annotations of
    the fields are not checked. *)
Definition __init__ (kwargs : gmap string pyvalue) : Exc t :=
  if negb (Nat.eqb (size (foldr delete kwargs fields)) 0) then inl TypeError
  else
    match kwargs !! "url", kwargs !! "client_id", kwargs !! "client_secret" with
    | Some u, Some c, Some s =>
        inr {| url := u; client_id := c; client_secret := s;
               custom_modules := default (PyList []) (kwargs !! "custom_modules") |}
    | _, _, _ => inl TypeError
    end.

End PySuiteCRMConfig.

(** [if self.parsed_config:] on an [Optional[PySuiteCRMConfig]]: the
    dataclass defines neither [__bool__] nor [__len__], so every instance
    is true and only [None] is false. *)
Definition slot_truthy (slot : option PySuiteCRMConfig.t) : bool :=
  match slot with
  | Some _ => true
  | None => false
  end.

(** ** [ENVParser] *)

Module ENVParser.

Record t : Type := { parsed_config : option PySuiteCRMConfig.t }.

Definition __init__ : t := {| parsed_config := None |}.

Definition parse_config (environ : gmap string string) : M t unit :=
  self ← get_self;
  if slot_truthy (parsed_config self) then mret tt
  else
    let url := environ_get environ "PYSUITECRM_URL" in
    let client_id := environ_get environ "PYSUITECRM_CLIENT_ID" in
    let client_secret := environ_get environ "PYSUITECRM_CLIENT_SECRET" in
    if negb (truthy url) || negb (truthy client_id) || negb (truthy client_secret)
    then raise (PySuiteCRMConfigException "Invalid ENV variables.")
    else
      config ← lift (PySuiteCRMConfig.__init__
                       (<["url" := url]>
                          (<["client_id" := client_id]>
                             (<["client_secret" := client_secret]> ∅))));
      set_self {| parsed_config := Some config |}.

End ENVParser.

(** ** [JSONParser] *)

Module JSONParser.

Record t : Type := {
  _json_config : pyvalue;
  parsed_config : option PySuiteCRMConfig.t
}.

Definition _load_file (fs : gmap string file) (config_file : string) : Exc pyvalue :=
  infile ← open fs config_file;
  json_config ← json_load infile;
  if negb (truthy json_config)
  then inl (PySuiteCRMConfigException "Could not load JSON file.")
  else mret json_config.

(** The constructor: the instance it returns, or the exception that
    leaves it, in which case the caller holds no instance.
    [pathlib.Path(config_file)] names the file that [config_file] names. *)
Definition __init__ (fs : gmap string file) (config_file : string) : Exc t :=
  json_config ← _load_file fs config_file;
  mret {| _json_config := json_config; parsed_config := None |}.

Definition parse_config : M t unit :=
  self ← get_self;
  if slot_truthy (parsed_config self) then mret tt
  else
    kwargs ← lift (unpack_kwargs (_json_config self));
    config ← lift (PySuiteCRMConfig.__init__ kwargs);
    set_self {| _json_config := _json_config self; parsed_config := Some config |}.

End JSONParser.

(** ** The [ConfigParser] protocol

    An implementation has a [parsed_config] attribute and a [parse_config]
    method; [W] is what the method reads from outside the instance. *)

Class ConfigParser (P W : Type) : Type := {
  parsed_config : P → option PySuiteCRMConfig.t;
  parse_config : W → M P unit
}.

#[global] Instance ENVParser_ConfigParser : ConfigParser ENVParser.t (gmap string string) := {|
  parsed_config := ENVParser.parsed_config;
  parse_config := ENVParser.parse_config
|}.

#[global] Instance JSONParser_ConfigParser : ConfigParser JSONParser.t unit := {|
  parsed_config := JSONParser.parsed_config;
  parse_config := λ _, JSONParser.parse_config
|}.

(** ** Vocabulary of the properties *)

(** The variable [name] is not set, or is set to the empty string. *)
Definition absent_or_empty (environ : gmap string string) (name : string) : Prop :=
  environ !! name = None ∨ environ !! name = Some "".

(** The variable [name] is set to [s], which is not empty. *)
Definition bound_nonempty (environ : gmap string string) (name s : string) : Prop :=
  environ !! name = Some s ∧ s ≠ "".

(** The document [d] has a key that names no field of the record. *)
Definition has_unknown_key (d : gmap string pyvalue) : Prop :=
  ∃ k, is_Some (d !! k) ∧ k ∉ PySuiteCRMConfig.fields.

(** The document [d] lacks one of the required fields. *)
Definition lacks_required_key (d : gmap string pyvalue) : Prop :=
  ∃ k, k ∈ PySuiteCRMConfig.required ∧ d !! k = None.

(** The string value [v] is not empty. *)
Definition nonempty_str (v : pyvalue) : Prop :=
  ∃ s, v = PyStr s ∧ s ≠ "".

(** A call of [parse_config] that raises leaves the instance as it was,
    with nothing in its slot. *)
Definition failure_keeps_slot_empty (P W : Type) `{ConfigParser P W} : Prop :=
  ∀ (w : W) (p p' : P) (e : exn),
    parse_config w p = (inl e, p') → p' = p ∧ parsed_config p' = None.

(** The three variables that [ENVParser.parse_config] reads. *)
Definition env_names : list string :=
  ["PYSUITECRM_URL"; "PYSUITECRM_CLIENT_ID"; "PYSUITECRM_CLIENT_SECRET"].

(** Every one of the three variables is bound to a non-empty string. *)
Definition valid_environ (environ : gmap string string) : Prop :=
  ∀ name, name ∈ env_names → ∃ s, bound_nonempty environ name s.

(** The record that [ENVParser] builds from the strings [u], [c] and [s]. *)
Definition env_record (u c s : string) : PySuiteCRMConfig.t :=
  {| PySuiteCRMConfig.url := PyStr u;
     PySuiteCRMConfig.client_id := PyStr c;
     PySuiteCRMConfig.client_secret := PyStr s;
     PySuiteCRMConfig.custom_modules := PyList [] |}.

(** A caller that calls [parse_config] on one [ENVParser], once under each
    environment of [environs] in turn, and catches what a call raises: the
    instance it is left with. *)
Fixpoint env_calls (environs : list (gmap string string)) (p : ENVParser.t) : ENVParser.t :=
  match environs with
  | [] => p
  | environ :: rest => env_calls rest (ENVParser.parse_config environ p).2
  end.

(** The same for [n] calls on one [JSONParser]. *)
Fixpoint json_calls (n : nat) (p : JSONParser.t) : JSONParser.t :=
  match n with
  | 0 => p
  | S m => json_calls m (JSONParser.parse_config p).2
  end.

(** The JSON object with the keys [url], [client_id] and [client_secret]
    bound to [u], [c] and [s], and with the key [custom_modules] bound to
    [m] when [modules] is [Some m]. *)
Definition doc_of (u c s : pyvalue) (modules : option pyvalue) : gmap string pyvalue :=
  let required := <["url" := u]> (<["client_id" := c]> (<["client_secret" := s]> ∅)) in
  match modules with
  | Some m => <["custom_modules" := m]> required
  | None => required
  end.

(** ** Sample inputs *)

Definition sample_environ : gmap string string :=
  <["PYSUITECRM_URL" := "https://crm.example.com"]>
    (<["PYSUITECRM_CLIENT_ID" := "abc"]>
       (<["PYSUITECRM_CLIENT_SECRET" := "s3cr3t"]> ∅)).

(** The document with the keys [url], [client_id] and [client_secret]
    bound to ["u"], ["c"] and ["s"]. *)
Definition doc_ucs : gmap string pyvalue :=
  <["url" := PyStr "u"]>
    (<["client_id" := PyStr "c"]> (<["client_secret" := PyStr "s"]> ∅)).

(** The same document with one more key, [unexpected]. *)
Definition doc_unexpected : gmap string pyvalue :=
  <["unexpected" := PyStr "x"]> doc_ucs.

(** A document whose three required keys are bound to empty strings. *)
Definition doc_blank : gmap string pyvalue :=
  <["url" := PyStr ""]>
    (<["client_id" := PyStr ""]> (<["client_secret" := PyStr ""]> ∅)).

(** An instance of [JSONParser] just constructed over the document [v]. *)
Definition json_parser_over (v : pyvalue) : JSONParser.t :=
  {| JSONParser._json_config := v; JSONParser.parsed_config := None |}.

(** A file system with one file, [config.json]. *)
Definition only_config_json (f : file) : gmap string file :=
  {["config.json" := f]}.

Definition config_blank : PySuiteCRMConfig.t :=
  {| PySuiteCRMConfig.url := PyStr "";
     PySuiteCRMConfig.client_id := PyStr "";
     PySuiteCRMConfig.client_secret := PyStr "";
     PySuiteCRMConfig.custom_modules := PyList [] |}.

Definition config_ucs : PySuiteCRMConfig.t :=
  {| PySuiteCRMConfig.url := PyStr "u";
     PySuiteCRMConfig.client_id := PyStr "c";
     PySuiteCRMConfig.client_secret := PyStr "s";
     PySuiteCRMConfig.custom_modules := PyList [] |}.

Example env_parse_sample :
  ENVParser.parse_config sample_environ ENVParser.__init__ =
  (inr tt,
   {| ENVParser.parsed_config := Some
        {| PySuiteCRMConfig.url := PyStr "https://crm.example.com";
           PySuiteCRMConfig.client_id := PyStr "abc";
           PySuiteCRMConfig.client_secret := PyStr "s3cr3t";
           PySuiteCRMConfig.custom_modules := PyList [] |} |}).
Proof. vm_compute. reflexivity. Qed.

Example json_init_sample :
  JSONParser.__init__ (only_config_json (JSONText (PyDict doc_ucs))) "config.json" =
  inr (json_parser_over (PyDict doc_ucs)).
Proof. vm_compute. reflexivity. Qed.

Example json_init_no_file :
  JSONParser.__init__ (only_config_json (JSONText (PyDict doc_ucs))) "other.json" =
  inl FileNotFoundError.
Proof. vm_compute. reflexivity. Qed.

Example falsy_documents :
  truthy PyNone = false ∧ truthy (PyDict ∅) = false ∧ truthy (PyList []) = false ∧
  truthy (PyStr "") = false ∧ truthy (PyInt 0) = false ∧ truthy (PyBool false) = false ∧
  truthy (PyFloat (S754_zero true)) = false.
Proof. repeat split. Qed.

Example truthy_documents :
  truthy (PyList [PyInt 1]) = true ∧ truthy (PyStr "x") = true ∧
  truthy (PyInt 7) = true ∧ truthy (PyBool true) = true ∧
  truthy (PyFloat S754_nan) = true ∧ truthy (PyDict doc_ucs) = true.
Proof. repeat split. Qed.

(** ** Auxiliary facts *)

Section Truth.

Lemma truthy_PyStr (s : string) : truthy (PyStr s) = true ↔ s ≠ "".
Proof.
  simpl. rewrite negb_true_iff. split.
  - intros H ->. discriminate.
  - intros H. apply String.eqb_neq. exact H.
Qed.

Lemma truthy_environ_get (environ : gmap string string) (name : string) :
  truthy (environ_get environ name) = true ↔ ∃ s, bound_nonempty environ name s.
Proof.
  unfold environ_get, bound_nonempty. destruct (environ !! name) as [s|].
  - rewrite truthy_PyStr. split; [eauto | intros (s' & [= <-] & H); exact H].
  - simpl. split; [discriminate | intros (s & [=] & _)].
Qed.

Lemma falsy_environ_get (environ : gmap string string) (name : string) :
  truthy (environ_get environ name) = false ↔ absent_or_empty environ name.
Proof.
  unfold environ_get, absent_or_empty. destruct (environ !! name) as [s|]; simpl.
  - rewrite negb_false_iff, String.eqb_eq. split; [intros ->; by right | by intros [[=] | [= ->]]].
  - split; [by left | done].
Qed.

Lemma truthy_dict_lookup (d : gmap string pyvalue) (k : string) :
  is_Some (d !! k) → truthy (PyDict d) = true.
Proof.
  intros H. simpl. rewrite negb_true_iff, Nat.eqb_neq.
  by eapply map_size_ne_0_lookup_2.
Qed.

End Truth.

Section Constructor.

Import PySuiteCRMConfig.

Implicit Types kwargs : gmap string pyvalue.

(** No keyword is left once the parameters have taken theirs. *)
Lemma no_extra_keyword kwargs :
  size (foldr delete kwargs fields) = 0 ↔ ∀ k, is_Some (kwargs !! k) → k ∈ fields.
Proof.
  rewrite map_size_empty_iff, map_empty. split.
  - intros H k [v Hv]. destruct (decide (k ∈ fields)) as [|Hk]; [done|].
    specialize (H k). rewrite lookup_foldr_delete_not_elem_of in H by done.
    congruence.
  - intros H k. destruct (foldr delete kwargs fields !! k) as [v|] eqn:E; [|done].
    apply lookup_foldr_delete_Some in E as [Hk Hv].
    destruct Hk. apply H. eauto.
Qed.

Lemma extra_keyword kwargs :
  size (foldr delete kwargs fields) ≠ 0 ↔ ∃ k, is_Some (kwargs !! k) ∧ k ∉ fields.
Proof.
  rewrite map_size_ne_0_lookup. split.
  - intros [k [v Hv]]. apply lookup_foldr_delete_Some in Hv as [Hk Hv]. eauto.
  - intros (k & [v Hv] & Hk). exists k, v. by apply lookup_foldr_delete_Some.
Qed.

(** The constructor raises nothing but [TypeError]. *)
Lemma init_raises kwargs e : __init__ kwargs = inl e → e = TypeError.
Proof.
  unfold __init__. repeat case_match; congruence.
Qed.

Lemma init_returns kwargs config :
  __init__ kwargs = inr config ↔
  (∀ k, is_Some (kwargs !! k) → k ∈ fields) ∧
  kwargs !! "url" = Some (url config) ∧
  kwargs !! "client_id" = Some (client_id config) ∧
  kwargs !! "client_secret" = Some (client_secret config) ∧
  custom_modules config = default (PyList []) (kwargs !! "custom_modules").
Proof.
  unfold __init__. rewrite <- no_extra_keyword.
  destruct (size (foldr delete kwargs fields)) as [|n]; simpl.
  - destruct (kwargs !! "url") as [u|], (kwargs !! "client_id") as [c|],
      (kwargs !! "client_secret") as [s|];
      (split; [intros [= <-]; by simpl | intros (_ & Hu & Hc & Hs & Hm)]);
      try discriminate.
    destruct config; simpl in *. congruence.
  - split; [discriminate | intros [[=] _]].
Qed.

Lemma init_unknown_key kwargs : has_unknown_key kwargs → __init__ kwargs = inl TypeError.
Proof.
  intros H. apply extra_keyword, Nat.eqb_neq in H.
  unfold __init__. by rewrite H.
Qed.

Lemma init_missing_key kwargs : lacks_required_key kwargs → __init__ kwargs = inl TypeError.
Proof.
  intros (k & Hk & Hnone). unfold __init__.
  destruct (negb _); [done|].
  unfold required in Hk. rewrite !elem_of_cons, elem_of_nil in Hk.
  destruct Hk as [-> | [-> | [-> | []]]]; rewrite Hnone; by repeat case_match.
Qed.

(** What [ENVParser] passes: the three keywords, and so a record with
    the default [custom_modules]. *)
Lemma init_three (u c s : pyvalue) :
  __init__ (<["url" := u]> (<["client_id" := c]> (<["client_secret" := s]> ∅))) =
  inr {| url := u; client_id := c; client_secret := s; custom_modules := PyList [] |}.
Proof. vm_compute. reflexivity. Qed.

(** Keys that are all fields and include the required ones: the
    constructor returns. *)
Lemma init_well_formed kwargs :
  ¬ has_unknown_key kwargs → ¬ lacks_required_key kwargs →
  ∃ config, __init__ kwargs = inr config.
Proof.
  intros Hu Hl.
  assert (∀ k, k ∈ required → is_Some (kwargs !! k)) as Hreq.
  { intros k Hk. destruct (kwargs !! k) eqn:E; [by eexists|].
    destruct Hl. by exists k. }
  destruct (Hreq "url") as [u Eu]; [set_solver|].
  destruct (Hreq "client_id") as [c Ec]; [set_solver|].
  destruct (Hreq "client_secret") as [s Es]; [set_solver|].
  eexists {| url := u; client_id := c; client_secret := s;
             custom_modules := default (PyList []) (kwargs !! "custom_modules") |}.
  apply init_returns. simpl. split_and!; try done.
  intros k Hk. destruct (decide (k ∈ fields)) as [|Hn]; [done|].
  destruct Hu. by exists k.
Qed.

End Constructor.

Section ENVParserFacts.

Import ENVParser.

Implicit Types (environ : gmap string string) (p : ENVParser.t).

(** A filled slot: the call returns at once, whatever the environment. *)
Lemma env_parse_cached environ p config :
  parsed_config p = Some config → parse_config environ p = (inr tt, p).
Proof.
  intros H. unfold parse_config, mbind, M_bind, get_self. by rewrite H.
Qed.

Lemma env_parse_valid environ p (u c s : string) :
  parsed_config p = None →
  bound_nonempty environ "PYSUITECRM_URL" u →
  bound_nonempty environ "PYSUITECRM_CLIENT_ID" c →
  bound_nonempty environ "PYSUITECRM_CLIENT_SECRET" s →
  parse_config environ p =
  (inr tt,
   {| parsed_config := Some
        {| PySuiteCRMConfig.url := PyStr u;
           PySuiteCRMConfig.client_id := PyStr c;
           PySuiteCRMConfig.client_secret := PyStr s;
           PySuiteCRMConfig.custom_modules := PyList [] |} |}).
Proof.
  intros Hp [Hu Hu'] [Hc Hc'] [Hs Hs'].
  unfold parse_config, mbind, M_bind, get_self, environ_get.
  rewrite Hp, Hu, Hc, Hs. simpl slot_truthy. cbv iota.
  apply truthy_PyStr in Hu', Hc', Hs'. rewrite Hu', Hc', Hs'. simpl negb. simpl orb.
  cbv iota. unfold lift. rewrite init_three. reflexivity.
Qed.

Lemma env_parse_invalid environ p :
  parsed_config p = None →
  absent_or_empty environ "PYSUITECRM_URL" ∨
  absent_or_empty environ "PYSUITECRM_CLIENT_ID" ∨
  absent_or_empty environ "PYSUITECRM_CLIENT_SECRET" →
  parse_config environ p = (inl (PySuiteCRMConfigException "Invalid ENV variables."), p).
Proof.
  intros Hp H.
  unfold parse_config, mbind, M_bind, get_self. rewrite Hp. simpl slot_truthy. cbv iota.
  rewrite <- !falsy_environ_get in H.
  destruct H as [H | [H | H]]; rewrite H; simpl negb;
    rewrite ?orb_true_r; reflexivity.
Qed.

(** One of the two holds of every variable. *)
Lemma absent_or_bound environ name :
  absent_or_empty environ name ∨ ∃ s, bound_nonempty environ name s.
Proof.
  rewrite <- falsy_environ_get, <- truthy_environ_get.
  destruct (truthy _); auto.
Qed.

(** The three outcomes of a call. *)
Lemma env_parse_cases environ p :
  (∃ config, parsed_config p = Some config ∧ parse_config environ p = (inr tt, p)) ∨
  (parsed_config p = None ∧
   parse_config environ p = (inl (PySuiteCRMConfigException "Invalid ENV variables."), p)) ∨
  (parsed_config p = None ∧
   ∃ u c s,
     bound_nonempty environ "PYSUITECRM_URL" u ∧
     bound_nonempty environ "PYSUITECRM_CLIENT_ID" c ∧
     bound_nonempty environ "PYSUITECRM_CLIENT_SECRET" s ∧
     parse_config environ p =
     (inr tt,
      {| parsed_config := Some
           {| PySuiteCRMConfig.url := PyStr u;
              PySuiteCRMConfig.client_id := PyStr c;
              PySuiteCRMConfig.client_secret := PyStr s;
              PySuiteCRMConfig.custom_modules := PyList [] |} |})).
Proof.
  destruct (parsed_config p) as [config|] eqn:Hp.
  { left. exists config. split; [done|]. by eapply env_parse_cached. }
  right.
  destruct (absent_or_bound environ "PYSUITECRM_URL") as [Hu | [u Hu]];
    [left; split; [done|]; apply env_parse_invalid; auto|].
  destruct (absent_or_bound environ "PYSUITECRM_CLIENT_ID") as [Hc | [c Hc]];
    [left; split; [done|]; apply env_parse_invalid; auto|].
  destruct (absent_or_bound environ "PYSUITECRM_CLIENT_SECRET") as [Hs | [s Hs]];
    [left; split; [done|]; apply env_parse_invalid; auto|].
  right. split; [done|]. exists u, c, s. repeat split; try apply Hu; try apply Hc; try apply Hs.
  by apply env_parse_valid.
Qed.

End ENVParserFacts.

Section JSONParserFacts.

Import JSONParser.

Implicit Types (fs : gmap string file) (p : JSONParser.t) (v : pyvalue).

Lemma json_init_decoded fs path v :
  fs !! path = Some (JSONText v) → truthy v = true →
  __init__ fs path = inr {| _json_config := v; parsed_config := None |}.
Proof.
  intros Hf Hv. unfold __init__, _load_file, open. rewrite Hf. simpl.
  by rewrite Hv.
Qed.

Lemma json_init_falsy fs path v :
  fs !! path = Some (JSONText v) → truthy v = false →
  __init__ fs path = inl (PySuiteCRMConfigException "Could not load JSON file.").
Proof.
  intros Hf Hv. unfold __init__, _load_file, open. rewrite Hf. simpl.
  by rewrite Hv.
Qed.

Lemma json_init_malformed fs path e :
  fs !! path = Some (NotJSON e) → __init__ fs path = inl (raised_by_load e).
Proof.
  intros Hf. unfold __init__, _load_file, open. by rewrite Hf.
Qed.

Lemma raised_by_load_library e : is_config_exception (raised_by_load e) = false.
Proof. by destruct e. Qed.

(** The exception of the module leaves the constructor for one reason. *)
Lemma json_init_config_exception fs path msg :
  __init__ fs path = inl (PySuiteCRMConfigException msg) ↔
  msg = "Could not load JSON file." ∧
  ∃ v, fs !! path = Some (JSONText v) ∧ truthy v = false.
Proof.
  unfold __init__, _load_file, open.
  destruct (fs !! path) as [[e|e|v]|]; simpl.
  - split; [by destruct e | by intros (_ & v & [=] & _)].
  - split; [by destruct e | by intros (_ & v & [=] & _)].
  - destruct (truthy v) eqn:Hv; simpl.
    + split; [done | intros (_ & v' & [= <-] & Hv'); congruence].
    + split; [intros [= <-]; eauto | by intros (-> & _)].
  - split; [done | by intros (_ & v & [=] & _)].
Qed.

(** An instance comes from a readable file with a true document, and
    starts with an empty slot. *)
Lemma json_init_returns fs path p :
  __init__ fs path = inr p →
  ∃ v, fs !! path = Some (JSONText v) ∧ truthy v = true ∧
       p = {| _json_config := v; parsed_config := None |}.
Proof.
  unfold __init__, _load_file, open.
  destruct (fs !! path) as [[e|e|v]|]; simpl; try discriminate.
  destruct (truthy v) eqn:Hv; simpl; [|discriminate].
  intros [= <-]. eauto.
Qed.

Lemma json_parse_cached p config :
  parsed_config p = Some config → parse_config p = (inr tt, p).
Proof.
  intros H. unfold parse_config, mbind, M_bind, get_self. by rewrite H.
Qed.

(** With an empty slot the call is the unpacking followed by the
    constructor. *)
Lemma json_parse_fresh p :
  parsed_config p = None →
  parse_config p =
  match unpack_kwargs (_json_config p) ≫= PySuiteCRMConfig.__init__ with
  | inl e => (inl e, p)
  | inr config =>
      (inr tt, {| _json_config := _json_config p; parsed_config := Some config |})
  end.
Proof.
  intros H. unfold parse_config, mbind, M_bind, Exc_bind, get_self, lift, set_self.
  rewrite H. simpl. destruct (unpack_kwargs _) as [e|kwargs]; [done|].
  by destruct (PySuiteCRMConfig.__init__ kwargs).
Qed.

Lemma json_parse_not_dict p :
  parsed_config p = None → is_dict (_json_config p) = false →
  parse_config p = (inl TypeError, p).
Proof.
  intros Hp Hd. rewrite json_parse_fresh by done.
  by destruct (_json_config p).
Qed.

Lemma json_parse_mismatch p d :
  parsed_config p = None → _json_config p = PyDict d →
  has_unknown_key d ∨ lacks_required_key d →
  parse_config p = (inl TypeError, p).
Proof.
  intros Hp Hd H. rewrite json_parse_fresh by done. rewrite Hd.
  unfold mbind, Exc_bind. simpl.
  destruct H as [H | H]; [apply init_unknown_key in H | apply init_missing_key in H];
    by rewrite H.
Qed.

(** A call that raises raises [TypeError], and had and leaves an empty
    slot. *)
Lemma json_parse_raises p e p' :
  parse_config p = (inl e, p') → p' = p ∧ parsed_config p = None ∧ e = TypeError.
Proof.
  destruct (parsed_config p) as [config|] eqn:Hp.
  { erewrite json_parse_cached by done. discriminate. }
  rewrite json_parse_fresh by done.
  destruct (_json_config p) as [| | | | | |d]; unfold mbind, Exc_bind; simpl;
    try (intros [= <- <-]; done).
  destruct (PySuiteCRMConfig.__init__ d) as [e'|config] eqn:Hi; [|discriminate].
  intros [= <- <-]. apply init_raises in Hi. done.
Qed.

(** A call that fills the slot fills it from a dictionary all of whose
    keys are fields. *)
Lemma json_parse_stores p p' :
  parsed_config p = None → parse_config p = (inr tt, p') →
  ∃ d config,
    _json_config p = PyDict d ∧
    PySuiteCRMConfig.__init__ d = inr config ∧
    p' = {| _json_config := PyDict d; parsed_config := Some config |}.
Proof.
  intros Hp. rewrite json_parse_fresh by done.
  destruct (_json_config p) as [| | | | | |d]; unfold mbind, Exc_bind; simpl;
    try discriminate.
  destruct (PySuiteCRMConfig.__init__ d) as [e'|config] eqn:Hi; [discriminate|].
  intros [= <-]. eauto.
Qed.

End JSONParserFacts.

(** ** Properties of [ENVParser] *)

(** C1.  When [PYSUITECRM_URL], [PYSUITECRM_CLIENT_ID] and
    [PYSUITECRM_CLIENT_SECRET] are bound to non-empty strings,
    [parse_config] on a newly constructed [ENVParser] returns and leaves in
    [parsed_config] the record of exactly these three values, with an empty
    [custom_modules]. *)
Theorem env_parse_config_stores_environment
    (environ : gmap string string) (url client_id client_secret : string) :
  environ !! "PYSUITECRM_URL" = Some url →
  environ !! "PYSUITECRM_CLIENT_ID" = Some client_id →
  environ !! "PYSUITECRM_CLIENT_SECRET" = Some client_secret →
  url ≠ "" → client_id ≠ "" → client_secret ≠ "" →
  ENVParser.parse_config environ ENVParser.__init__ =
  (inr tt,
   {| ENVParser.parsed_config := Some
        {| PySuiteCRMConfig.url := PyStr url;
           PySuiteCRMConfig.client_id := PyStr client_id;
           PySuiteCRMConfig.client_secret := PyStr client_secret;
           PySuiteCRMConfig.custom_modules := PyList [] |} |}).
Proof.
  intros Hu Hc Hs Hu' Hc' Hs'. by apply env_parse_valid.
Qed.

Lemma env_parse_config_stores_environment_witness :
  ENVParser.parse_config sample_environ ENVParser.__init__ =
  (inr tt,
   {| ENVParser.parsed_config := Some
        {| PySuiteCRMConfig.url := PyStr "https://crm.example.com";
           PySuiteCRMConfig.client_id := PyStr "abc";
           PySuiteCRMConfig.client_secret := PyStr "s3cr3t";
           PySuiteCRMConfig.custom_modules := PyList [] |} |}).
Proof.
  apply (env_parse_config_stores_environment sample_environ
           "https://crm.example.com" "abc" "s3cr3t");
    first [ vm_compute; reflexivity | discriminate ].
Defined.

(** C3.  Once [parse_config] has returned on an [ENVParser], its slot is
    filled, and a second call returns with the instance, and so the record,
    unchanged whatever the environment has become in between: the second
    call does not depend on the environment. *)
Theorem env_parse_config_memoized
    (environ environ' : gmap string string) (p p1 : ENVParser.t) :
  ENVParser.parse_config environ p = (inr tt, p1) →
  is_Some (ENVParser.parsed_config p1) ∧
  ENVParser.parse_config environ' p1 = (inr tt, p1).
Proof.
  intros H.
  assert (is_Some (ENVParser.parsed_config p1)) as Hslot.
  { destruct (env_parse_cases environ p)
      as [(config & Hp & E) | [[Hp E] | (Hp & u & c & s & _ & _ & _ & E)]];
      rewrite E in H; [|discriminate|]; injection H as <-; [by rewrite Hp | by eexists]. }
  split; [done|]. destruct Hslot as [config Hslot]. by eapply env_parse_cached.
Qed.

Lemma env_parse_config_memoized_witness :
  is_Some (ENVParser.parsed_config
             (ENVParser.parse_config sample_environ ENVParser.__init__).2) ∧
  ENVParser.parse_config ∅ (ENVParser.parse_config sample_environ ENVParser.__init__).2 =
  (inr tt, (ENVParser.parse_config sample_environ ENVParser.__init__).2).
Proof.
  apply (env_parse_config_memoized sample_environ ∅ ENVParser.__init__).
  vm_compute. reflexivity.
Defined.

(** C5.  On a newly constructed [ENVParser]: when one of the three
    variables is absent or bound to the empty string, [parse_config] raises
    [PySuiteCRMConfigException('Invalid ENV variables.')] and the slot is
    still empty; when the three are bound to non-empty strings, it raises
    nothing. *)
Theorem env_parse_config_raises_iff_invalid (environ : gmap string string) :
  (absent_or_empty environ "PYSUITECRM_URL" ∨
   absent_or_empty environ "PYSUITECRM_CLIENT_ID" ∨
   absent_or_empty environ "PYSUITECRM_CLIENT_SECRET" →
   ∃ p, ENVParser.parse_config environ ENVParser.__init__ =
        (inl (PySuiteCRMConfigException "Invalid ENV variables."), p) ∧
        ENVParser.parsed_config p = None) ∧
  ((∃ u, bound_nonempty environ "PYSUITECRM_URL" u) ∧
   (∃ c, bound_nonempty environ "PYSUITECRM_CLIENT_ID" c) ∧
   (∃ s, bound_nonempty environ "PYSUITECRM_CLIENT_SECRET" s) →
   ∃ p, ENVParser.parse_config environ ENVParser.__init__ = (inr tt, p)).
Proof.
  split.
  - intros H. exists ENVParser.__init__. split; [|done]. by apply env_parse_invalid.
  - intros ([u Hu] & [c Hc] & [s Hs]). eexists. by apply env_parse_valid.
Qed.

Lemma env_parse_config_raises_iff_invalid_witness :
  (∃ p, ENVParser.parse_config (delete "PYSUITECRM_URL" sample_environ) ENVParser.__init__ =
        (inl (PySuiteCRMConfigException "Invalid ENV variables."), p) ∧
        ENVParser.parsed_config p = None) ∧
  (∃ p, ENVParser.parse_config sample_environ ENVParser.__init__ = (inr tt, p)).
Proof.
  split.
  - apply (env_parse_config_raises_iff_invalid (delete "PYSUITECRM_URL" sample_environ)).
    left. left. vm_compute. reflexivity.
  - apply (env_parse_config_raises_iff_invalid sample_environ).
    repeat split; eexists; (split; [vm_compute; reflexivity | discriminate]).
Defined.

(** ** Properties of both parsers *)

(** C6.  For both parsers, a call of [parse_config] that raises leaves the
    instance as it was and its slot empty; and a newly constructed instance
    over corrected input (three non-empty variables; a document whose keys
    are fields and include the required ones) has its [parse_config] return
    with the slot filled. *)
Theorem parse_config_failure_keeps_slot_empty :
  failure_keeps_slot_empty ENVParser.t (gmap string string) ∧
  failure_keeps_slot_empty JSONParser.t unit ∧
  (∀ (environ : gmap string string) (u c s : string),
     bound_nonempty environ "PYSUITECRM_URL" u →
     bound_nonempty environ "PYSUITECRM_CLIENT_ID" c →
     bound_nonempty environ "PYSUITECRM_CLIENT_SECRET" s →
     ∃ p, ENVParser.parse_config environ ENVParser.__init__ = (inr tt, p) ∧
          is_Some (ENVParser.parsed_config p)) ∧
  (∀ (fs : gmap string file) (path : string) (d : gmap string pyvalue),
     fs !! path = Some (JSONText (PyDict d)) →
     ¬ has_unknown_key d → ¬ lacks_required_key d →
     ∃ p p', JSONParser.__init__ fs path = inr p ∧
             JSONParser.parse_config p = (inr tt, p') ∧
             is_Some (JSONParser.parsed_config p')).
Proof.
  split_and!.
  - intros environ p p' e H. simpl in *.
    destruct (env_parse_cases environ p)
      as [(config & Hp & E) | [[Hp E] | (Hp & u & c & s & _ & _ & _ & E)]];
      rewrite E in H; try discriminate.
    injection H as _ <-. done.
  - intros [] p p' e H. simpl in *.
    apply json_parse_raises in H as (-> & Hp & _). done.
  - intros environ u c s Hu Hc Hs. eexists. split; [by apply env_parse_valid|].
    by eexists.
  - intros fs path d Hf Hu Hl.
    destruct (init_well_formed d Hu Hl) as [config Hi].
    assert (truthy (PyDict d) = true) as Ht.
    { apply init_returns in Hi as (_ & Hurl & _). by eapply truthy_dict_lookup. }
    exists (json_parser_over (PyDict d)),
      {| JSONParser._json_config := PyDict d; JSONParser.parsed_config := Some config |}.
    split_and!; [by apply json_init_decoded | | by eexists].
    rewrite json_parse_fresh by done. simpl. unfold mbind, Exc_bind. by rewrite Hi.
Qed.

Lemma parse_config_failure_keeps_slot_empty_witness :
  ENVParser.parsed_config (ENVParser.parse_config ∅ ENVParser.__init__).2 = None ∧
  JSONParser.parsed_config
    (JSONParser.parse_config (json_parser_over (PyDict doc_unexpected))).2 = None.
Proof.
  destruct parse_config_failure_keeps_slot_empty as (Henv & Hjson & _).
  split.
  - apply (Henv ∅ ENVParser.__init__ _
             (PySuiteCRMConfigException "Invalid ENV variables.")).
    vm_compute. reflexivity.
  - apply (Hjson tt (json_parser_over (PyDict doc_unexpected)) _ TypeError).
    vm_compute. reflexivity.
Defined.

(** C7, as the code has it.  A record that [ENVParser.parse_config] stores
    has a non-empty string for [url], for [client_id] and for
    [client_secret].  A record that [JSONParser.parse_config] stores has for
    these three fields the values that the document binds to the keys of
    the same names. *)
Theorem stored_record_required_fields :
  (∀ (environ : gmap string string) (p p' : ENVParser.t) (config : PySuiteCRMConfig.t),
     ENVParser.parsed_config p = None →
     ENVParser.parse_config environ p = (inr tt, p') →
     ENVParser.parsed_config p' = Some config →
     nonempty_str (PySuiteCRMConfig.url config) ∧
     nonempty_str (PySuiteCRMConfig.client_id config) ∧
     nonempty_str (PySuiteCRMConfig.client_secret config)) ∧
  (∀ (p p' : JSONParser.t) (config : PySuiteCRMConfig.t),
     JSONParser.parsed_config p = None →
     JSONParser.parse_config p = (inr tt, p') →
     JSONParser.parsed_config p' = Some config →
     ∃ d, JSONParser._json_config p = PyDict d ∧
          d !! "url" = Some (PySuiteCRMConfig.url config) ∧
          d !! "client_id" = Some (PySuiteCRMConfig.client_id config) ∧
          d !! "client_secret" = Some (PySuiteCRMConfig.client_secret config)).
Proof.
  split.
  - intros environ p p' config Hp H Hc.
    destruct (env_parse_cases environ p)
      as [(config' & Hp' & E) | [[_ E] | (_ & u & c & s & Hu & Hc' & Hs & E)]];
      rewrite E in H; [congruence | discriminate |].
    injection H as <-. simpl in Hc. injection Hc as <-. simpl.
    unfold nonempty_str. split_and!; eexists; (split; [done|]);
      [apply Hu | apply Hc' | apply Hs].
  - intros p p' config Hp H Hc.
    destruct (json_parse_stores p p' Hp H) as (d & config' & Hd & Hi & ->).
    simpl in Hc. injection Hc as ->.
    apply init_returns in Hi as (_ & Hu & Hc & Hs & _). eauto.
Qed.

Lemma stored_record_required_fields_witness :
  nonempty_str (PyStr "https://crm.example.com") ∧
  ∃ d, PyDict doc_blank = PyDict d ∧ d !! "url" = Some (PyStr "").
Proof.
  destruct stored_record_required_fields as [Henv Hjson].
  split.
  - eapply (Henv sample_environ ENVParser.__init__ _
              {| PySuiteCRMConfig.url := PyStr "https://crm.example.com";
                 PySuiteCRMConfig.client_id := PyStr "abc";
                 PySuiteCRMConfig.client_secret := PyStr "s3cr3t";
                 PySuiteCRMConfig.custom_modules := PyList [] |});
      vm_compute; reflexivity.
  - destruct (Hjson (json_parser_over (PyDict doc_blank))
                {| JSONParser._json_config := PyDict doc_blank;
                   JSONParser.parsed_config := Some config_blank |}
                config_blank) as (d & Hd & Hu & _);
      [vm_compute; reflexivity ..|].
    exists d. split; [exact Hd | exact Hu].
Defined.

(** The claim C7 fails for [JSONParser]: over the document whose three
    required keys are bound to empty strings the constructor returns, and
    [parse_config] returns and stores a record whose [url], [client_id] and
    [client_secret] are empty. *)
Lemma json_parser_stores_empty_fields :
  JSONParser.__init__ (only_config_json (JSONText (PyDict doc_blank))) "config.json" =
    inr (json_parser_over (PyDict doc_blank)) ∧
  JSONParser.parse_config (json_parser_over (PyDict doc_blank)) =
    (inr tt, {| JSONParser._json_config := PyDict doc_blank;
                JSONParser.parsed_config := Some config_blank |}) ∧
  PySuiteCRMConfig.url config_blank = PyStr "" ∧
  PySuiteCRMConfig.client_id config_blank = PyStr "" ∧
  PySuiteCRMConfig.client_secret config_blank = PyStr "" ∧
  ¬ nonempty_str (PySuiteCRMConfig.url config_blank).
Proof.
  split_and!; try (vm_compute; reflexivity).
  intros (s & [= <-] & Hs). by apply Hs.
Qed.

(** ** Properties of [JSONParser] *)

(** C2, as the code has it.  When the document held by a constructed
    [JSONParser] is an object with a key that names no field of the record,
    or without one of the required fields, the first call of [parse_config]
    raises the [TypeError] of the record's constructor, which is not a
    [PySuiteCRMConfigException], and leaves the instance as it was. *)
Theorem json_parse_config_mismatch_raises_TypeError
    (fs : gmap string file) (path : string) (p : JSONParser.t) (d : gmap string pyvalue) :
  JSONParser.__init__ fs path = inr p →
  JSONParser._json_config p = PyDict d →
  has_unknown_key d ∨ lacks_required_key d →
  JSONParser.parse_config p = (inl TypeError, p) ∧
  is_config_exception TypeError = false.
Proof.
  intros Hi Hd H. split; [|done].
  apply json_init_returns in Hi as (v & _ & _ & ->).
  by eapply json_parse_mismatch.
Qed.

Lemma json_parse_config_mismatch_raises_TypeError_witness :
  JSONParser.parse_config (json_parser_over (PyDict doc_unexpected)) =
    (inl TypeError, json_parser_over (PyDict doc_unexpected)) ∧
  is_config_exception TypeError = false.
Proof.
  apply (json_parse_config_mismatch_raises_TypeError
           (only_config_json (JSONText (PyDict doc_unexpected))) "config.json"
           (json_parser_over (PyDict doc_unexpected)) doc_unexpected).
  - vm_compute. reflexivity.
  - reflexivity.
  - left. exists "unexpected". split; [by eexists|].
    apply (bool_decide_unpack _). vm_compute. exact I.
Defined.

(** The claim C2 fails on the document of the specification with the key
    [unexpected]: the constructor returns, and [parse_config] raises
    [TypeError], not [PySuiteCRMConfigException]. *)
Lemma json_unexpected_key_is_not_config_exception :
  JSONParser.__init__
    (only_config_json (JSONText (PyDict doc_unexpected))) "config.json" =
    inr (json_parser_over (PyDict doc_unexpected)) ∧
  has_unknown_key doc_unexpected ∧
  JSONParser.parse_config (json_parser_over (PyDict doc_unexpected)) =
    (inl TypeError, json_parser_over (PyDict doc_unexpected)) ∧
  ¬ ∃ msg p', JSONParser.parse_config (json_parser_over (PyDict doc_unexpected)) =
              (inl (PySuiteCRMConfigException msg), p').
Proof.
  split_and!.
  - vm_compute. reflexivity.
  - exists "unexpected". split; [by eexists|].
    apply (bool_decide_unpack _). vm_compute. exact I.
  - vm_compute. reflexivity.
  - intros (msg & p' & H). vm_compute in H. discriminate H.
Qed.

(** C4, the code where the claim fails.  On a file that [json.load] does
    not decode, the constructor of [JSONParser] raises what [json.load]
    raised, a [JSONDecodeError] when the text is not a JSON document: the
    test that raises [PySuiteCRMConfigException('Could not load JSON
    file.')] is not reached, and no [PySuiteCRMConfigException] leaves the
    constructor. *)
Theorem json_init_load_error_propagates
    (fs : gmap string file) (path : string) (e : load_error) :
  fs !! path = Some (NotJSON e) →
  JSONParser.__init__ fs path = inl (raised_by_load e) ∧
  is_config_exception (raised_by_load e) = false ∧
  ∀ msg, JSONParser.__init__ fs path ≠ inl (PySuiteCRMConfigException msg).
Proof.
  intros Hf. split_and!.
  - by apply json_init_malformed.
  - apply raised_by_load_library.
  - intros msg H. apply json_init_config_exception in H as (_ & v & Hv & _).
    congruence.
Qed.

Lemma json_init_load_error_propagates_witness :
  JSONParser.__init__ (only_config_json (NotJSON InvalidDocument)) "config.json" =
    inl JSONDecodeError ∧
  is_config_exception JSONDecodeError = false ∧
  ∀ msg, JSONParser.__init__ (only_config_json (NotJSON InvalidDocument)) "config.json" ≠
         inl (PySuiteCRMConfigException msg).
Proof.
  apply (json_init_load_error_propagates
           (only_config_json (NotJSON InvalidDocument)) "config.json" InvalidDocument).
  vm_compute. reflexivity.
Defined.

(** C8.  Over a file that decodes to the object with exactly the keys
    [url], [client_id] and [client_secret] bound to ["u"], ["c"] and ["s"],
    the constructor returns and [parse_config] stores the record with
    these three values and an empty [custom_modules]. *)
Theorem json_parse_config_three_keys (fs : gmap string file) (path : string) :
  fs !! path = Some (JSONText (PyDict doc_ucs)) →
  JSONParser.__init__ fs path = inr (json_parser_over (PyDict doc_ucs)) ∧
  JSONParser.parse_config (json_parser_over (PyDict doc_ucs)) =
    (inr tt, {| JSONParser._json_config := PyDict doc_ucs;
                JSONParser.parsed_config := Some config_ucs |}) ∧
  PySuiteCRMConfig.custom_modules config_ucs = PyList [].
Proof.
  intros Hf. split_and!.
  - by apply json_init_decoded.
  - vm_compute. reflexivity.
  - reflexivity.
Qed.

Lemma json_parse_config_three_keys_witness :
  JSONParser.__init__ (only_config_json (JSONText (PyDict doc_ucs))) "config.json" =
    inr (json_parser_over (PyDict doc_ucs)) ∧
  JSONParser.parse_config (json_parser_over (PyDict doc_ucs)) =
    (inr tt, {| JSONParser._json_config := PyDict doc_ucs;
                JSONParser.parsed_config := Some config_ucs |}) ∧
  PySuiteCRMConfig.custom_modules config_ucs = PyList [].
Proof.
  apply (json_parse_config_three_keys
           (only_config_json (JSONText (PyDict doc_ucs))) "config.json").
  vm_compute. reflexivity.
Defined.

(** C9.  Over a file that decodes to a false document ([null], an empty
    object, an empty array, ...) the constructor raises
    [PySuiteCRMConfigException('Could not load JSON file.')], and returns
    no instance. *)
Theorem json_init_falsy_document_raises
    (fs : gmap string file) (path : string) (v : pyvalue) :
  fs !! path = Some (JSONText v) →
  truthy v = false →
  JSONParser.__init__ fs path =
    inl (PySuiteCRMConfigException "Could not load JSON file.") ∧
  ∀ p, JSONParser.__init__ fs path ≠ inr p.
Proof.
  intros Hf Hv. rewrite (json_init_falsy fs path v Hf Hv). split; [done|].
  intros p. discriminate.
Qed.

Lemma json_init_falsy_document_raises_witness :
  JSONParser.__init__ (only_config_json (JSONText (PyDict ∅))) "config.json" =
    inl (PySuiteCRMConfigException "Could not load JSON file.") ∧
  ∀ p, JSONParser.__init__ (only_config_json (JSONText (PyDict ∅))) "config.json" ≠ inr p.
Proof.
  apply (json_init_falsy_document_raises
           (only_config_json (JSONText (PyDict ∅))) "config.json" (PyDict ∅)).
  - vm_compute. reflexivity.
  - vm_compute. reflexivity.
Defined.

(** C10.  The constructor checks that the document is true, not that it is
    an object: over a file that decodes to a true value that is not an
    object it returns an instance holding that value, and [parse_config]
    on this instance raises [TypeError], which is not a
    [PySuiteCRMConfigException], leaving the instance as it was. *)
Theorem json_parse_config_non_object_raises_TypeError
    (fs : gmap string file) (path : string) (v : pyvalue) :
  fs !! path = Some (JSONText v) →
  truthy v = true →
  is_dict v = false →
  JSONParser.__init__ fs path = inr (json_parser_over v) ∧
  JSONParser.parse_config (json_parser_over v) = (inl TypeError, json_parser_over v) ∧
  is_config_exception TypeError = false.
Proof.
  intros Hf Hv Hd. split_and!.
  - by apply json_init_decoded.
  - by apply json_parse_not_dict.
  - done.
Qed.

Lemma json_parse_config_non_object_raises_TypeError_witness :
  JSONParser.__init__
    (only_config_json (JSONText (PyList [PyStr "url"]))) "config.json" =
    inr (json_parser_over (PyList [PyStr "url"])) ∧
  JSONParser.parse_config (json_parser_over (PyList [PyStr "url"])) =
    (inl TypeError, json_parser_over (PyList [PyStr "url"])) ∧
  is_config_exception TypeError = false.
Proof.
  apply (json_parse_config_non_object_raises_TypeError
           (only_config_json (JSONText (PyList [PyStr "url"]))) "config.json"
           (PyList [PyStr "url"])).
  - vm_compute. reflexivity.
  - reflexivity.
  - reflexivity.
Defined.

(** ** Further properties of the constructor of [PySuiteCRMConfig] *)

(** Success of the constructor, read on the set of the keywords. *)
Lemma config_init_returns_iff_aux (kwargs : gmap string pyvalue) :
  (∃ config, PySuiteCRMConfig.__init__ kwargs = inr config) ↔
  dom kwargs ⊆ list_to_set PySuiteCRMConfig.fields ∧
  list_to_set PySuiteCRMConfig.required ⊆ dom kwargs.
Proof.
  split.
  - intros [config H]. apply init_returns in H as (Hk & Hu & Hc & Hs & _). split.
    + intros k Hk'. apply elem_of_list_to_set, Hk. by apply elem_of_dom.
    + intros k Hk'. apply elem_of_list_to_set in Hk'. apply elem_of_dom.
      unfold PySuiteCRMConfig.required in Hk'.
      rewrite !elem_of_cons, elem_of_nil in Hk'.
      destruct Hk' as [-> | [-> | [-> | []]]]; by eexists.
  - intros [Hf Hr]. apply init_well_formed.
    + intros (k & Hk & Hn). apply Hn.
      apply (elem_of_list_to_set (C := gset string)), Hf. by apply elem_of_dom.
    + intros (k & Hk & Hn).
      assert (k ∈ dom kwargs) as Hd by (by apply Hr, elem_of_list_to_set).
      apply elem_of_dom in Hd as [v Hv]. congruence.
Qed.

(** X1.  [PySuiteCRMConfig] called with the keyword arguments [kwargs]
    returns a record exactly when every keyword is a field and the three
    fields without default are among the keywords; whatever it raises is a
    [TypeError]. *)
Theorem config_init_returns_iff (kwargs : gmap string pyvalue) :
  ((∃ config, PySuiteCRMConfig.__init__ kwargs = inr config) ↔
   dom kwargs ⊆ list_to_set PySuiteCRMConfig.fields ∧
   list_to_set PySuiteCRMConfig.required ⊆ dom kwargs) ∧
  (∀ e, PySuiteCRMConfig.__init__ kwargs = inl e → e = TypeError).
Proof.
  split; [apply config_init_returns_iff_aux | intros e; apply init_raises].
Qed.

(** ** Further properties of [ENVParser] *)

Section ENVParserCalls.

Import ENVParser.

Implicit Types (environ : gmap string string) (p : ENVParser.t).

(** The result of a call is a function of the three variables. *)
Lemma env_parse_agree environ environ' p :
  (∀ name, name ∈ env_names → environ !! name = environ' !! name) →
  parse_config environ p = parse_config environ' p.
Proof.
  intros H. unfold parse_config, environ_get.
  rewrite !H by (unfold env_names; set_solver). reflexivity.
Qed.

Lemma valid_environ_bound environ :
  valid_environ environ ↔
  ∃ u c s, bound_nonempty environ "PYSUITECRM_URL" u ∧
           bound_nonempty environ "PYSUITECRM_CLIENT_ID" c ∧
           bound_nonempty environ "PYSUITECRM_CLIENT_SECRET" s.
Proof.
  unfold valid_environ, env_names. split.
  - intros H.
    destruct (H "PYSUITECRM_URL") as [u Hu]; [set_solver|].
    destruct (H "PYSUITECRM_CLIENT_ID") as [c Hc]; [set_solver|].
    destruct (H "PYSUITECRM_CLIENT_SECRET") as [s Hs]; [set_solver|].
    eauto 6.
  - intros (u & c & s & Hu & Hc & Hs) name Hn.
    rewrite !elem_of_cons, elem_of_nil in Hn.
    destruct Hn as [-> | [-> | [-> | []]]]; eauto.
Qed.

(** A variable cannot be both. *)
Lemma absent_not_bound environ name s :
  absent_or_empty environ name → bound_nonempty environ name s → False.
Proof.
  intros [H | H] [H' Hs]; rewrite H in H'; [discriminate|].
  injection H' as <-. by apply Hs.
Qed.

Lemma invalid_environ_absent environ :
  ¬ valid_environ environ ↔
  absent_or_empty environ "PYSUITECRM_URL" ∨
  absent_or_empty environ "PYSUITECRM_CLIENT_ID" ∨
  absent_or_empty environ "PYSUITECRM_CLIENT_SECRET".
Proof.
  rewrite valid_environ_bound. split.
  - intros H.
    destruct (absent_or_bound environ "PYSUITECRM_URL") as [|[u Hu]]; [auto|].
    destruct (absent_or_bound environ "PYSUITECRM_CLIENT_ID") as [|[c Hc]]; [auto|].
    destruct (absent_or_bound environ "PYSUITECRM_CLIENT_SECRET") as [|[s Hs]]; [auto|].
    destruct H. eauto 6.
  - intros H (u & c & s & Hu & Hc & Hs).
    destruct H as [H | [H | H]]; eauto using absent_not_bound.
Qed.

(** A filled slot survives any calls. *)
Lemma env_calls_cached environs p :
  is_Some (parsed_config p) → env_calls environs p = p.
Proof.
  intros [config H]. induction environs as [|environ rest IH]; [done|].
  simpl. by rewrite (env_parse_cached environ p config H).
Qed.

(** Calls under invalid environments leave an empty slot empty. *)
Lemma env_calls_invalid environs p :
  parsed_config p = None → Forall (λ environ, ¬ valid_environ environ) environs →
  env_calls environs p = p.
Proof.
  intros Hp H. induction H as [|environ rest Hbad _ IH]; [done|].
  simpl. apply invalid_environ_absent in Hbad.
  by rewrite (env_parse_invalid environ p Hp Hbad).
Qed.

Lemma env_calls_app environs environs' p :
  env_calls (environs ++ environs') p = env_calls environs' (env_calls environs p).
Proof.
  revert p. induction environs as [|environ rest IH]; intros p; [done|].
  simpl. apply IH.
Qed.

(** Where the content of the slot comes from. *)
Lemma env_calls_slot environs p :
  parsed_config (env_calls environs p) = parsed_config p ∨
  ∃ environ u c s,
    environ ∈ environs ∧
    bound_nonempty environ "PYSUITECRM_URL" u ∧
    bound_nonempty environ "PYSUITECRM_CLIENT_ID" c ∧
    bound_nonempty environ "PYSUITECRM_CLIENT_SECRET" s ∧
    parsed_config (env_calls environs p) = Some (env_record u c s).
Proof.
  revert p. induction environs as [|environ rest IH]; intros p; [by left|].
  simpl.
  destruct (env_parse_cases environ p)
    as [(config & Hp & E) | [[Hp E] | (Hp & u & c & s & Hu & Hc & Hs & E)]];
    rewrite E; simpl.
  - destruct (IH p) as [H | (environ' & u & c & s & Hin & H)]; [by left|].
    right. exists environ', u, c, s. split; [by apply list_elem_of_further | done].
  - destruct (IH p) as [H | (environ' & u & c & s & Hin & H)]; [by left|].
    right. exists environ', u, c, s. split; [by apply list_elem_of_further | done].
  - right.
    destruct (IH {| parsed_config := Some (env_record u c s) |})
      as [H | (environ' & u' & c' & s' & Hin & H)].
    + exists environ, u, c, s. split_and!; try done. apply list_elem_of_here.
    + exists environ', u', c', s'. split; [by apply list_elem_of_further | done].
Qed.

End ENVParserCalls.

(** X2.  [ENVParser.parse_config] reads the three variables and nothing
    else: under two environments that agree on them, a call on the same
    instance has the same outcome and leaves the same instance. *)
Theorem env_parse_config_reads_three_variables
    (environ environ' : gmap string string) (p : ENVParser.t) :
  (∀ name, name ∈ env_names → environ !! name = environ' !! name) →
  ENVParser.parse_config environ p = ENVParser.parse_config environ' p.
Proof. apply env_parse_agree. Qed.

Lemma env_parse_config_reads_three_variables_witness :
  ENVParser.parse_config sample_environ ENVParser.__init__ =
  ENVParser.parse_config (<["HOME" := "/root"]> sample_environ) ENVParser.__init__.
Proof.
  apply (env_parse_config_reads_three_variables
           sample_environ (<["HOME" := "/root"]> sample_environ) ENVParser.__init__).
  intros name Hn. unfold env_names in Hn.
  rewrite !elem_of_cons, elem_of_nil in Hn.
  destruct Hn as [-> | [-> | [-> | []]]]; vm_compute; reflexivity.
Defined.

(** X3.  For [ENVParser.parse_config] a variable set to the empty string
    is a variable that is not set: binding any name to the empty string,
    or removing it, gives the same outcome on every instance. *)
Theorem env_parse_config_empty_is_absent
    (environ : gmap string string) (name : string) (p : ENVParser.t) :
  ENVParser.parse_config (<[name := ""]> environ) p =
  ENVParser.parse_config (delete name environ) p.
Proof.
  destruct (ENVParser.parsed_config p) as [config|] eqn:Hp.
  { by rewrite !(env_parse_cached _ p config Hp). }
  destruct (decide (name ∈ env_names)) as [Hin | Hout].
  - assert (absent_or_empty (<[name := ""]> environ) name) as H1
        by (right; apply lookup_insert_eq).
    assert (absent_or_empty (delete name environ) name) as H2
        by (left; apply lookup_delete_eq).
    unfold env_names in Hin. rewrite !elem_of_cons, elem_of_nil in Hin.
    destruct Hin as [-> | [-> | [-> | []]]];
      rewrite !env_parse_invalid by auto; reflexivity.
  - apply env_parse_agree. intros k Hk.
    assert (name ≠ k) by (intros ->; done).
    by rewrite lookup_insert_ne, lookup_delete_ne.
Qed.

(** X4.  A call of [ENVParser.parse_config] raises exactly when the slot is
    empty and one of the three variables is absent or empty, and what it
    raises then is [PySuiteCRMConfigException('Invalid ENV variables.')]. *)
Theorem env_parse_config_raises_iff (environ : gmap string string) (p : ENVParser.t) :
  ((∃ e p', ENVParser.parse_config environ p = (inl e, p')) ↔
   ENVParser.parsed_config p = None ∧ ¬ valid_environ environ) ∧
  (∀ e p', ENVParser.parse_config environ p = (inl e, p') →
           e = PySuiteCRMConfigException "Invalid ENV variables.").
Proof.
  destruct (env_parse_cases environ p)
    as [(config & Hp & E) | [[Hp E] | (Hp & u & c & s & Hu & Hc & Hs & E)]].
  - split; [split|].
    + intros (e & p' & H). rewrite E in H. discriminate.
    + intros [H _]. congruence.
    + intros e p' H. rewrite E in H. discriminate.
  - split; [split|].
    + intros _. split; [done|]. intros Hv.
      apply valid_environ_bound in Hv as (u & c & s & Hu & Hc & Hs).
      rewrite (env_parse_valid environ p u c s) in E by done. discriminate.
    + intros _. rewrite E. eauto.
    + intros e p' H. rewrite E in H. by injection H as <- _.
  - split; [split|].
    + intros (e & p' & H). rewrite E in H. discriminate.
    + intros [_ H]. destruct H. apply valid_environ_bound. eauto 6.
    + intros e p' H. rewrite E in H. discriminate.
Qed.

(** X5.  A call that raised does not spoil the instance: a later call on
    the same instance, under an environment that binds the three variables
    to non-empty strings, returns and stores the record of these
    strings. *)
Theorem env_parse_config_retry
    (environ environ' : gmap string string) (p p' : ENVParser.t) (e : exn)
    (u c s : string) :
  ENVParser.parse_config environ p = (inl e, p') →
  bound_nonempty environ' "PYSUITECRM_URL" u →
  bound_nonempty environ' "PYSUITECRM_CLIENT_ID" c →
  bound_nonempty environ' "PYSUITECRM_CLIENT_SECRET" s →
  ENVParser.parse_config environ' p' =
  (inr tt, {| ENVParser.parsed_config := Some (env_record u c s) |}).
Proof.
  intros H Hu Hc Hs.
  destruct (env_parse_cases environ p)
    as [(config & Hp & E) | [[Hp E] | (Hp & u' & c' & s' & _ & _ & _ & E)]];
    rewrite E in H; try discriminate.
  injection H as _ <-. by apply env_parse_valid.
Qed.

Lemma env_parse_config_retry_witness :
  ENVParser.parse_config sample_environ ENVParser.__init__ =
  (inr tt,
   {| ENVParser.parsed_config := Some (env_record "https://crm.example.com" "abc" "s3cr3t") |}).
Proof.
  apply (env_parse_config_retry ∅ sample_environ ENVParser.__init__ ENVParser.__init__
           (PySuiteCRMConfigException "Invalid ENV variables.")
           "https://crm.example.com" "abc" "s3cr3t").
  - vm_compute. reflexivity.
  - split; [vm_compute; reflexivity | discriminate].
  - split; [vm_compute; reflexivity | discriminate].
  - split; [vm_compute; reflexivity | discriminate].
Defined.

(** X6.  Whatever calls of [parse_config] a new [ENVParser] has gone
    through, its slot is empty or holds a record made of the three
    non-empty strings of one of the environments it was called under, with
    an empty [custom_modules]. *)
Theorem env_calls_slot_invariant (environs : list (gmap string string)) :
  ENVParser.parsed_config (env_calls environs ENVParser.__init__) = None ∨
  ∃ environ u c s,
    environ ∈ environs ∧
    bound_nonempty environ "PYSUITECRM_URL" u ∧
    bound_nonempty environ "PYSUITECRM_CLIENT_ID" c ∧
    bound_nonempty environ "PYSUITECRM_CLIENT_SECRET" s ∧
    ENVParser.parsed_config (env_calls environs ENVParser.__init__) =
      Some (env_record u c s).
Proof.
  destruct (env_calls_slot environs ENVParser.__init__) as [H | H]; [by left | by right].
Qed.

(** X7.  The first valid environment wins: after calls under environments
    that are not valid, the call under the first one that binds the three
    variables to non-empty strings stores their record, and no later call
    changes it, whatever the environment then is. *)
Theorem env_calls_first_valid_wins
    (invalid later : list (gmap string string)) (environ : gmap string string)
    (u c s : string) :
  Forall (λ environ', ¬ valid_environ environ') invalid →
  bound_nonempty environ "PYSUITECRM_URL" u →
  bound_nonempty environ "PYSUITECRM_CLIENT_ID" c →
  bound_nonempty environ "PYSUITECRM_CLIENT_SECRET" s →
  env_calls (invalid ++ environ :: later) ENVParser.__init__ =
  {| ENVParser.parsed_config := Some (env_record u c s) |}.
Proof.
  intros Hbad Hu Hc Hs.
  rewrite env_calls_app, (env_calls_invalid invalid ENVParser.__init__) by done. simpl.
  rewrite (env_parse_valid environ ENVParser.__init__ u c s) by done. simpl.
  apply env_calls_cached. by eexists.
Qed.

Lemma env_calls_first_valid_wins_witness :
  env_calls ([∅; delete "PYSUITECRM_URL" sample_environ] ++
             sample_environ :: [<["PYSUITECRM_URL" := "https://other.example.com"]> sample_environ; ∅])
    ENVParser.__init__ =
  {| ENVParser.parsed_config := Some (env_record "https://crm.example.com" "abc" "s3cr3t") |}.
Proof.
  apply (env_calls_first_valid_wins
           [∅; delete "PYSUITECRM_URL" sample_environ]
           [<["PYSUITECRM_URL" := "https://other.example.com"]> sample_environ; ∅]
           sample_environ "https://crm.example.com" "abc" "s3cr3t").
  - repeat constructor; intros Hv;
      destruct (Hv "PYSUITECRM_URL") as (x & Hx & _);
      [ apply (bool_decide_unpack _); vm_compute; exact I
      | vm_compute in Hx; discriminate Hx
      | apply (bool_decide_unpack _); vm_compute; exact I
      | vm_compute in Hx; discriminate Hx ].
  - split; [vm_compute; reflexivity | discriminate].
  - split; [vm_compute; reflexivity | discriminate].
  - split; [vm_compute; reflexivity | discriminate].
Defined.

(** ** Further properties of [JSONParser] *)

Section JSONParserCalls.

Import JSONParser.

Implicit Types (p : JSONParser.t).

(** One call after another is one call. *)
Lemma json_parse_twice p : parse_config (parse_config p).2 = parse_config p.
Proof.
  destruct (parsed_config p) as [config|] eqn:Hp.
  { rewrite (json_parse_cached p config Hp). simpl. by eapply json_parse_cached. }
  destruct (parse_config p) as [[e|[]] p'] eqn:E; simpl.
  - apply json_parse_raises in E as Hp'. destruct Hp' as (-> & _ & _). exact E.
  - destruct (json_parse_stores p p' Hp E) as (d & config & _ & _ & ->).
    by erewrite json_parse_cached.
Qed.

Lemma json_calls_S n p : json_calls (S n) p = (parse_config p).2.
Proof.
  revert p. induction n as [|n IH]; intros p; [done|].
  change (json_calls (S (S n)) p) with (json_calls (S n) (parse_config p).2).
  by rewrite IH, json_parse_twice.
Qed.

(** No call changes the document. *)
Lemma json_parse_keeps_document p : _json_config (parse_config p).2 = _json_config p.
Proof.
  destruct (parsed_config p) as [config|] eqn:Hp.
  { by rewrite (json_parse_cached p config Hp). }
  destruct (parse_config p) as [[e|[]] p'] eqn:E; simpl.
  - by apply json_parse_raises in E as (-> & _ & _).
  - by destruct (json_parse_stores p p' Hp E) as (d & config & -> & _ & ->).
Qed.

End JSONParserCalls.

(** X8.  The outcomes of constructing a [JSONParser].  It returns an
    instance exactly when [open] returns a file that [json.load] decodes to
    a true value, and the instance holds that value and an empty slot.  It
    raises [PySuiteCRMConfigException] exactly when [json.load] returned a
    false value, and the message is then 'Could not load JSON file.'.
    Any other exception that leaves it is the one that [open] or
    [json.load] raised. *)
Theorem json_init_outcomes (fs : gmap string file) (path : string) :
  (∀ p, JSONParser.__init__ fs path = inr p ↔
        ∃ v, fs !! path = Some (JSONText v) ∧ truthy v = true ∧ p = json_parser_over v) ∧
  (∀ msg, JSONParser.__init__ fs path = inl (PySuiteCRMConfigException msg) ↔
          msg = "Could not load JSON file." ∧
          ∃ v, fs !! path = Some (JSONText v) ∧ truthy v = false) ∧
  (∀ e, JSONParser.__init__ fs path = inl e → is_config_exception e = false →
        open fs path = inl e ∨
        ∃ infile, open fs path = inr infile ∧ json_load infile = inl e).
Proof.
  split_and!.
  - intros p. split; [apply json_init_returns|].
    intros (v & Hf & Hv & ->). by apply json_init_decoded.
  - intros msg. apply json_init_config_exception.
  - intros e. unfold JSONParser.__init__, JSONParser._load_file, open.
    destruct (fs !! path) as [[e'|e'|v]|]; simpl.
    + intros [= <-] _. by left.
    + intros [= <-] _. right. eexists. split; [done|]. reflexivity.
    + destruct (truthy v); simpl; [discriminate|]. intros [= <-]. discriminate.
    + intros [= <-] _. by left.
Qed.

(** X9.  On an instance with an empty slot, [JSONParser.parse_config]
    returns exactly when the document is an object all of whose keys are
    fields of the record and among whose keys are [url], [client_id] and
    [client_secret]. *)
Theorem json_parse_config_returns_iff (p : JSONParser.t) :
  JSONParser.parsed_config p = None →
  ((∃ p', JSONParser.parse_config p = (inr tt, p')) ↔
   ∃ d, JSONParser._json_config p = PyDict d ∧
        dom d ⊆ list_to_set PySuiteCRMConfig.fields ∧
        list_to_set PySuiteCRMConfig.required ⊆ dom d).
Proof.
  intros Hp. split.
  - intros [p' H]. destruct (json_parse_stores p p' Hp H) as (d & config & Hd & Hi & _).
    exists d. split; [done|]. apply config_init_returns_iff_aux. eauto.
  - intros (d & Hd & Hk). apply config_init_returns_iff_aux in Hk as [config Hi].
    rewrite json_parse_fresh, Hd by done. simpl. unfold mbind, Exc_bind.
    rewrite Hi. eauto.
Qed.

Lemma json_parse_config_returns_iff_witness :
  (∃ p', JSONParser.parse_config (json_parser_over (PyDict doc_ucs)) = (inr tt, p')) ↔
  ∃ d, PyDict doc_ucs = PyDict d ∧
       dom d ⊆ list_to_set PySuiteCRMConfig.fields ∧
       list_to_set PySuiteCRMConfig.required ⊆ dom d.
Proof.
  apply (json_parse_config_returns_iff (json_parser_over (PyDict doc_ucs))).
  reflexivity.
Defined.

(** X10.  [JSONParser] stores the values of the document as they are,
    whatever their JSON types: over the object that binds [url],
    [client_id] and [client_secret] to any three values, with or without a
    value for [custom_modules], the constructor returns and [parse_config]
    stores the record of these values, with [custom_modules] the value
    given or else an empty list. *)
Theorem json_parse_config_stores_document_values
    (fs : gmap string file) (path : string) (u c s : pyvalue) (modules : option pyvalue) :
  fs !! path = Some (JSONText (PyDict (doc_of u c s modules))) →
  JSONParser.__init__ fs path = inr (json_parser_over (PyDict (doc_of u c s modules))) ∧
  JSONParser.parse_config (json_parser_over (PyDict (doc_of u c s modules))) =
    (inr tt,
     {| JSONParser._json_config := PyDict (doc_of u c s modules);
        JSONParser.parsed_config := Some
          {| PySuiteCRMConfig.url := u;
             PySuiteCRMConfig.client_id := c;
             PySuiteCRMConfig.client_secret := s;
             PySuiteCRMConfig.custom_modules := default (PyList []) modules |} |}).
Proof.
  intros Hf. split.
  - apply json_init_decoded; [done|]. destruct modules; vm_compute; reflexivity.
  - destruct modules; vm_compute; reflexivity.
Qed.

Lemma json_parse_config_stores_document_values_witness :
  JSONParser.__init__
    (only_config_json
       (JSONText (PyDict (doc_of (PyInt 1) PyNone (PyStr "s")
                            (Some (PyList [PyDict {["name" := PyStr "Leads"]}]))))))
    "config.json" =
    inr (json_parser_over
           (PyDict (doc_of (PyInt 1) PyNone (PyStr "s")
                      (Some (PyList [PyDict {["name" := PyStr "Leads"]}]))))) ∧
  JSONParser.parse_config
    (json_parser_over
       (PyDict (doc_of (PyInt 1) PyNone (PyStr "s")
                  (Some (PyList [PyDict {["name" := PyStr "Leads"]}]))))) =
    (inr tt,
     {| JSONParser._json_config :=
          PyDict (doc_of (PyInt 1) PyNone (PyStr "s")
                    (Some (PyList [PyDict {["name" := PyStr "Leads"]}])));
        JSONParser.parsed_config := Some
          {| PySuiteCRMConfig.url := PyInt 1;
             PySuiteCRMConfig.client_id := PyNone;
             PySuiteCRMConfig.client_secret := PyStr "s";
             PySuiteCRMConfig.custom_modules :=
               default (PyList []) (Some (PyList [PyDict {["name" := PyStr "Leads"]}])) |} |}).
Proof.
  apply (json_parse_config_stores_document_values
           (only_config_json
              (JSONText (PyDict (doc_of (PyInt 1) PyNone (PyStr "s")
                                   (Some (PyList [PyDict {["name" := PyStr "Leads"]}]))))))
           "config.json" (PyInt 1) PyNone (PyStr "s")
           (Some (PyList [PyDict {["name" := PyStr "Leads"]}]))).
  vm_compute. reflexivity.
Defined.

(** X11.  Calling [JSONParser.parse_config] again changes nothing: after
    any number of calls the instance is as the first call left it, and a
    further call has the outcome of the first, returning if it returned
    and raising the same exception if it raised. *)
Theorem json_parse_config_idempotent (n : nat) (p : JSONParser.t) :
  json_calls (S n) p = (JSONParser.parse_config p).2 ∧
  JSONParser.parse_config (json_calls (S n) p) = JSONParser.parse_config p.
Proof.
  rewrite json_calls_S. split; [done | apply json_parse_twice].
Qed.

(** X12.  An instance that the constructor of [JSONParser] returned keeps,
    through any number of calls of [parse_config], the document it was
    constructed over, which is a true value; and its slot is empty or holds
    the record that [PySuiteCRMConfig] builds from that document. *)
Theorem json_calls_invariant
    (fs : gmap string file) (path : string) (p : JSONParser.t) (n : nat) :
  JSONParser.__init__ fs path = inr p →
  JSONParser._json_config (json_calls n p) = JSONParser._json_config p ∧
  truthy (JSONParser._json_config p) = true ∧
  (JSONParser.parsed_config (json_calls n p) = None ∨
   ∃ d config,
     JSONParser._json_config p = PyDict d ∧
     PySuiteCRMConfig.__init__ d = inr config ∧
     JSONParser.parsed_config (json_calls n p) = Some config).
Proof.
  intros Hi. apply json_init_returns in Hi as (v & _ & Hv & ->). simpl.
  destruct n as [|n]; [by split_and!; [| |left]|].
  rewrite json_calls_S. split_and!; [apply json_parse_keeps_document | done |].
  destruct (JSONParser.parse_config {| JSONParser._json_config := v;
                                        JSONParser.parsed_config := None |})
    as [[e|[]] p'] eqn:E; simpl.
  - apply json_parse_raises in E as (-> & _ & _). by left.
  - apply json_parse_stores in E as (d & config & Hd & Hc & ->); [|done].
    right. exists d, config. done.
Qed.

Lemma json_calls_invariant_witness :
  JSONParser._json_config (json_calls 3 (json_parser_over (PyDict doc_ucs))) =
    JSONParser._json_config (json_parser_over (PyDict doc_ucs)) ∧
  truthy (JSONParser._json_config (json_parser_over (PyDict doc_ucs))) = true ∧
  (JSONParser.parsed_config (json_calls 3 (json_parser_over (PyDict doc_ucs))) = None ∨
   ∃ d config,
     JSONParser._json_config (json_parser_over (PyDict doc_ucs)) = PyDict d ∧
     PySuiteCRMConfig.__init__ d = inr config ∧
     JSONParser.parsed_config (json_calls 3 (json_parser_over (PyDict doc_ucs))) =
       Some config).
Proof.
  apply (json_calls_invariant
           (only_config_json (JSONText (PyDict doc_ucs))) "config.json"
           (json_parser_over (PyDict doc_ucs)) 3).
  vm_compute. reflexivity.
Defined.

(** ** The two parsers together *)

(** X13.  The two parsers agree: when the environment binds the three
    variables to non-empty strings and the file decodes to the object that
    binds [url], [client_id] and [client_secret] to the same strings, the
    record that a new [ENVParser] stores is the record that a [JSONParser]
    constructed over the file stores. *)
Theorem env_and_json_parsers_agree
    (environ : gmap string string) (fs : gmap string file) (path : string)
    (u c s : string) :
  bound_nonempty environ "PYSUITECRM_URL" u →
  bound_nonempty environ "PYSUITECRM_CLIENT_ID" c →
  bound_nonempty environ "PYSUITECRM_CLIENT_SECRET" s →
  fs !! path = Some (JSONText (PyDict (doc_of (PyStr u) (PyStr c) (PyStr s) None))) →
  ∃ q, JSONParser.__init__ fs path = inr q ∧
       JSONParser.parsed_config (JSONParser.parse_config q).2 = Some (env_record u c s) ∧
       ENVParser.parsed_config (ENVParser.parse_config environ ENVParser.__init__).2 =
         JSONParser.parsed_config (JSONParser.parse_config q).2.
Proof.
  intros Hu Hc Hs Hf.
  exists (json_parser_over (PyDict (doc_of (PyStr u) (PyStr c) (PyStr s) None))).
  rewrite (env_parse_valid environ ENVParser.__init__ u c s) by done.
  split_and!.
  - apply json_init_decoded; [done|]. vm_compute. reflexivity.
  - vm_compute. reflexivity.
  - vm_compute. reflexivity.
Qed.

Lemma env_and_json_parsers_agree_witness :
  ∃ q, JSONParser.__init__
         (only_config_json
            (JSONText (PyDict (doc_of (PyStr "https://crm.example.com") (PyStr "abc")
                                 (PyStr "s3cr3t") None)))) "config.json" = inr q ∧
       JSONParser.parsed_config (JSONParser.parse_config q).2 =
         Some (env_record "https://crm.example.com" "abc" "s3cr3t") ∧
       ENVParser.parsed_config (ENVParser.parse_config sample_environ ENVParser.__init__).2 =
         JSONParser.parsed_config (JSONParser.parse_config q).2.
Proof.
  apply (env_and_json_parsers_agree sample_environ
           (only_config_json
              (JSONText (PyDict (doc_of (PyStr "https://crm.example.com") (PyStr "abc")
                                   (PyStr "s3cr3t") None))))
           "config.json" "https://crm.example.com" "abc" "s3cr3t").
  - split; [vm_compute; reflexivity | discriminate].
  - split; [vm_compute; reflexivity | discriminate].
  - split; [vm_compute; reflexivity | discriminate].
  - vm_compute. reflexivity.
Defined.
